(** * The trial-data ingestion endpoint of app.py

    A shallow embedding of [submit_data], the handler of
    [POST /api/submit-data], and of the [TrialResult] table it writes.

    - Values are the Python objects [request.get_json()] hands to the
      handler: [None], booleans, integers, floats, strings, lists and
      dictionaries.
    - The handler runs in a state-and-exception monad.  The state is the
      committed table plus the rows pending in [db.session]; an exception
      leaves the state as it was when it was raised, which is what the
      [except] clause then rolls back.
    - The persistence layer (SQLAlchemy over SQLite) is not part of app.py.
      It enters through a [Store]: the function that says whether flushing
      a pending set raises.  Facts about the handler are proved for every
      store; [sqlite] is the store that enforces the schema app.py declares
      on SQLite.
    - The table keeps, for each committed row, the values it was written
      with, which are those its [TrialResult] object was built with.  What
      a query gives back for them is [read_row].
    - Besides the handler: requests served one after the other, and the
      text [__repr__] gives a row. *)

From Stdlib Require Import List String Ascii ZArith Bool Lia.
From Stdlib Require Import Floats.SpecFloat.
From Stdlib Require Import DecimalString DecimalPos DecimalZ.
Import ListNotations.
Local Open Scope string_scope.
Local Open Scope list_scope.
Local Open Scope Z_scope.
Local Set Warnings "-register-all".

(** ** Python values *)

Inductive value : Type :=
| PNone
| PBool (b : bool)
| PInt (n : Z)
| PFloat (x : spec_float)
| PStr (s : string)
| PList (items : list value)
| PDict (entries : list (string * value)).

(** [type(v).__name__], as it appears in the interpreter's messages. *)
Definition type_name (v : value) : string :=
  match v with
  | PNone => "NoneType"
  | PBool _ => "bool"
  | PInt _ => "int"
  | PFloat _ => "float"
  | PStr _ => "str"
  | PList _ => "list"
  | PDict _ => "dict"
  end.

(** [bool(v)]: what [not v] tests. *)
Definition truthy (v : value) : bool :=
  match v with
  | PNone => false
  | PBool b => b
  | PInt n => negb (n =? 0)
  | PFloat (S754_zero _) => false
  | PFloat _ => true
  | PStr EmptyString => false
  | PStr _ => true
  | PList [] => false
  | PList _ => true
  | PDict [] => false
  | PDict _ => true
  end.

(** A dictionary is kept as its entries in insertion order. *)
Fixpoint lookup (key : string) (entries : list (string * value)) : option value :=
  match entries with
  | [] => None
  | (k, v) :: rest => if String.eqb k key then Some v else lookup key rest
  end.

(** [d.get(key)] on a dictionary: the value, or [None] when the key is absent. *)
Definition dict_get (entries : list (string * value)) (key : string) : value :=
  match lookup key entries with
  | Some v => v
  | None => PNone
  end.

Definition is_dict (v : value) : bool :=
  match v with
  | PDict _ => true
  | _ => false
  end.

(** ** Exceptions *)

Inductive exn : Type :=
| HTTPException (text : string)
| AttributeError (message : string)
| TypeError (message : string)
| IntegrityError (column : string)
| StatementError (message : string)
| OperationalError (message : string).

(** [str(e)].  For the integrity error only the driver's own sentence is
    kept; the statement text SQLAlchemy appends to it is left out. *)
Definition py_str (e : exn) : string :=
  match e with
  | HTTPException t => t
  | AttributeError m => m
  | TypeError m => m
  | IntegrityError c =>
      ("(sqlite3.IntegrityError) NOT NULL constraint failed: trial_result." ++ c)%string
  | StatementError m => m
  | OperationalError m => m
  end.

Definition no_attribute_get (v : value) : exn :=
  AttributeError ("'" ++ type_name v ++ "' object has no attribute 'get'")%string.

Definition not_iterable (v : value) : exn :=
  TypeError ("'" ++ type_name v ++ "' object is not iterable")%string.

Definition no_len (v : value) : exn :=
  TypeError ("object of type '" ++ type_name v ++ "' has no len()")%string.

(** ** The TrialResult model (app.py, class TrialResult) *)

Record TrialResult : Type := mkTrialResult {
  id : option Z;
  participant_id : value;
  task_type : value;
  stimulus_word : value;
  stimulus_color : value;
  response_time : value;
  key_press : value;
  was_correct : value;
  avg_blink_rate : value
}.

(** The declared column types. *)
Inductive column_type : Type :=
| String_ (length : nat)
| Float_
| Boolean_.

Record column : Type := mkColumn {
  col_name : string;
  col_type : column_type;
  nullable : bool;
  col_value : TrialResult -> value
}.

(** The eight data columns, in declaration order, with [nullable=False]
    where the class says so. *)
Definition columns : list column :=
  [ mkColumn "participant_id" (String_ 100) false participant_id;
    mkColumn "task_type" (String_ 50) false task_type;
    mkColumn "stimulus_word" (String_ 20) false stimulus_word;
    mkColumn "stimulus_color" (String_ 20) false stimulus_color;
    mkColumn "response_time" Float_ true response_time;
    mkColumn "key_press" (String_ 10) true key_press;
    mkColumn "was_correct" Boolean_ true was_correct;
    mkColumn "avg_blink_rate" Float_ true avg_blink_rate ].

(** ** The persistence layer *)

(** What the handler needs to know of the store: whether flushing the
    pending rows on top of the committed table raises. *)
Record Store : Type := mkStore {
  flush_error : list TrialResult -> list TrialResult -> option exn
}.

Record world : Type := mkWorld {
  table : list TrialResult;
  session : list TrialResult
}.

(** The largest primary key in use, if any. *)
Definition max_id (rows : list TrialResult) : option Z :=
  fold_right (fun r acc => match id r, acc with
                           | Some n, Some m => Some (Z.max n m)
                           | Some n, None => Some n
                           | None, _ => acc
                           end) None rows.

(** The primary key given to the next inserted row: one past the largest
    in use, 1 in an empty table.  This is SQLite's rule while the largest
    key is below 2^63 - 1; what it picks beyond that is not described. *)
Definition next_id (rows : list TrialResult) : Z :=
  match max_id rows with
  | Some m => m + 1
  | None => 1
  end.

Definition with_id (n : Z) (r : TrialResult) : TrialResult :=
  mkTrialResult (Some n) (participant_id r) (task_type r) (stimulus_word r)
    (stimulus_color r) (response_time r) (key_press r) (was_correct r)
    (avg_blink_rate r).

Fixpoint assign_ids (n : Z) (rows : list TrialResult) : list TrialResult :=
  match rows with
  | [] => []
  | r :: rest => with_id n r :: assign_ids (n + 1) rest
  end.

(** ** The handler's monad: state, and exceptions that keep the state *)

Definition M (A : Type) : Type := world -> (exn + A) * world.

Definition ret {A} (a : A) : M A := fun w => (inr a, w).

Definition raise {A} (e : exn) : M A := fun w => (inl e, w).

Definition bind {A B} (m : M A) (k : A -> M B) : M B :=
  fun w => match m w with
           | (inr a, w') => k a w'
           | (inl e, w') => (inl e, w')
           end.

(** [try: body / except Exception as e: handler e], for a handler that
    itself returns. *)
Definition try_except {A} (body : M A) (handler : exn -> world -> A * world)
  : world -> A * world :=
  fun w => match body w with
           | (inr a, w') => (a, w')
           | (inl e, w') => handler e w'
           end.

Declare Scope py_scope.
Delimit Scope py_scope with py.
Notation "x <- m ;; k" := (bind m (fun x => k))
  (at level 61, m at next level, right associativity) : py_scope.
Notation "m ;; k" := (bind m (fun _ => k))
  (at level 61, right associativity) : py_scope.
Local Open Scope py_scope.

(** [for x in items: body x]. *)
Fixpoint for_each {A} (items : list A) (body : A -> M unit) : M unit :=
  match items with
  | [] => ret tt
  | x :: rest => body x ;; for_each rest body
  end.

(** ** Operations on values that may raise *)

(** [v.get(key)]: only dictionaries have the method. *)
Definition py_get (v : value) (key : string) : M value :=
  match v with
  | PDict entries => ret (dict_get entries key)
  | _ => raise (no_attribute_get v)
  end.

Fixpoint chars (s : string) : list value :=
  match s with
  | EmptyString => []
  | String c rest => PStr (String c EmptyString) :: chars rest
  end.

(** What [for x in v] iterates over: the elements of a list, the keys of a
    dictionary, the characters of a string. *)
Definition py_iter (v : value) : M (list value) :=
  match v with
  | PList items => ret items
  | PDict entries => ret (map (fun kv => PStr (fst kv)) entries)
  | PStr s => ret (chars s)
  | _ => raise (not_iterable v)
  end.

(** [len(v)]. *)
Definition py_len (v : value) : M Z :=
  match v with
  | PList items => ret (Z.of_nat (List.length items))
  | PDict entries => ret (Z.of_nat (List.length entries))
  | PStr s => ret (Z.of_nat (String.length s))
  | _ => raise (no_len v)
  end.

(** ** The request, the response and the session *)

(** A request either carries a body that decodes as JSON, or one for which
    [request.get_json()] raises. *)
Inductive request : Type :=
| Json (data : value)
| Undecodable (description : string).

Definition get_json (req : request) : M value :=
  match req with
  | Json data => ret data
  | Undecodable description => raise (HTTPException description)
  end.

(** [(jsonify(body), status)]. *)
Record response : Type := mkResponse {
  body : value;
  status : Z
}.

Definition jsonify (entries : list (string * value)) : value := PDict entries.

Section Handler.

Variable store : Store.

Definition session_add (r : TrialResult) : M unit :=
  fun w => (inr tt, mkWorld (table w) (session w ++ [r])).

(** [db.session.commit()]: flush the pending rows in one transaction.  If
    the flush raises nothing is written.  The table records the values the
    rows are written with; [read_row] is what comes back for them. *)
Definition session_commit : M unit :=
  fun w => match flush_error store (table w) (session w) with
           | Some e => (inl e, w)
           | None =>
               (inr tt,
                mkWorld (table w ++ assign_ids (next_id (table w)) (session w)) [])
           end.

(** [db.session.rollback()]: the pending rows are dropped. *)
Definition session_rollback (w : world) : world :=
  mkWorld (table w) [].

(** The body of the loop (app.py, lines 61-74). *)
Definition add_trial (participant_id trial_data : value) : M unit :=
  task_type <- py_get trial_data "task_type" ;;
  stimulus_word <- py_get trial_data "stimulus_word" ;;
  stimulus_color <- py_get trial_data "stimulus_color" ;;
  response_time <- py_get trial_data "response_time" ;;
  key_press <- py_get trial_data "key_press" ;;
  was_correct <- py_get trial_data "was_correct" ;;
  avg_blink_rate <- py_get trial_data "avg_blink_rate" ;;
  session_add (mkTrialResult None participant_id task_type stimulus_word
                 stimulus_color response_time key_press was_correct
                 avg_blink_rate).

(** The [try] block (app.py, lines 51-80). *)
Definition submit_data_try (req : request) : M response :=
  data <- get_json req ;;
  participant_id <- py_get data "participant_id" ;;
  trials <- py_get data "trials" ;;
  if negb (truthy participant_id) || negb (truthy trials) then
    ret (mkResponse
           (jsonify [("status", PStr "error");
                     ("message", PStr "Missing participant_id or trials data")])
           400)
  else
    items <- py_iter trials ;;
    for_each items (add_trial participant_id) ;;
    session_commit ;;
    n <- py_len trials ;;
    ret (mkResponse
           (jsonify [("status", PStr "success"); ("trials_saved", PInt n)])
           201).

(** The [except] clause (app.py, lines 82-84). *)
Definition submit_data_except (e : exn) (w : world) : response * world :=
  let w' := session_rollback w in
  (mkResponse
     (jsonify [("status", PStr "error"); ("message", PStr (py_str e))])
     500,
   w').

Definition submit_data (req : request) : world -> response * world :=
  try_except (submit_data_try req) submit_data_except.

(** One request against a committed table: the session is fresh when the
    handler starts and is discarded when it returns. *)
Definition post (rows : list TrialResult) (req : request)
  : response * list TrialResult :=
  let (resp, w) := submit_data req (mkWorld rows []) in
  (resp, table w).

End Handler.

Arguments post store rows req : simpl never.

(** The row the loop adds for a trial object that is a dictionary. *)
Definition new_trial (participant_id : value) (trial_data : list (string * value))
  : TrialResult :=
  mkTrialResult None participant_id
    (dict_get trial_data "task_type")
    (dict_get trial_data "stimulus_word")
    (dict_get trial_data "stimulus_color")
    (dict_get trial_data "response_time")
    (dict_get trial_data "key_press")
    (dict_get trial_data "was_correct")
    (dict_get trial_data "avg_blink_rate").

(** The three response shapes of the handler. *)
Definition saved_response (n : nat) : response :=
  mkResponse
    (jsonify [("status", PStr "success"); ("trials_saved", PInt (Z.of_nat n))])
    201.

Definition missing_response : response :=
  mkResponse
    (jsonify [("status", PStr "error");
              ("message", PStr "Missing participant_id or trials data")])
    400.

Definition error_response (e : exn) : response :=
  mkResponse
    (jsonify [("status", PStr "error"); ("message", PStr (py_str e))])
    500.

(** ** The store app.py configures: the declared schema on SQLite

    SQLite enforces [NOT NULL] and does not enforce the length of a
    [VARCHAR(n)]: the length in [String_ n] plays no part below.  A value of
    its column's type is taken as it is.  What SQLAlchemy's type processors,
    the driver and SQLite's type affinity do with any other value is left
    open: [mistyped c v] is the exception value [v] raises in column [c],
    if any.  Which of several failing columns is reported first carries no
    meaning. *)

Definition is_none (v : value) : bool :=
  match v with
  | PNone => true
  | _ => false
  end.

Definition well_typed (c : column) (v : value) : bool :=
  match col_type c, v with
  | String_ _, PStr _ => true
  | Float_, PFloat _ => true
  | Boolean_, PBool _ => true
  | _, _ => false
  end.

(** [None] where the column is nullable, or a value of the column's type. *)
Definition admissible (c : column) (v : value) : bool :=
  match v with
  | PNone => nullable c
  | _ => well_typed c v
  end.

Fixpoint first_error {A} (check : A -> option exn) (xs : list A) : option exn :=
  match xs with
  | [] => None
  | x :: rest =>
      match check x with
      | Some e => Some e
      | None => first_error check rest
      end
  end.

Section Sqlite.

Variable mistyped : column -> value -> option exn.

Definition column_error (r : TrialResult) (c : column) : option exn :=
  match col_value c r with
  | PNone => if nullable c then None else Some (IntegrityError (col_name c))
  | v => if well_typed c v then None else mistyped c v
  end.

Definition insert_error (r : TrialResult) : option exn :=
  first_error (column_error r) columns.

Definition sqlite : Store :=
  mkStore (fun _ pending => first_error insert_error pending).

End Sqlite.

(** The instance in which no value of another type raises. *)
Definition lenient (c : column) (v : value) : option exn := None.

(** A store whose every flush fails. *)
Definition locked : Store :=
  mkStore (fun _ _ => Some (OperationalError "database is locked")).

(** ** Reading a row back

    What a query returns for a value written to a column of its type: a
    string, a boolean and a float come back as written, except that SQLite
    keeps a NaN as NULL, which comes back as [None], and a negative zero as
    zero.  What comes back for a value of another type than its column's
    (an integer in a [String] or [Float] column, say) is left open:
    [coerced c v]. *)

Definition read_float (x : spec_float) : value :=
  match x with
  | S754_nan => PNone
  | S754_zero _ => PFloat (S754_zero false)
  | _ => PFloat x
  end.

(** The floats that come back as they were written. *)
Definition exact_float (x : spec_float) : bool :=
  match x with
  | S754_nan => false
  | S754_zero negative => negb negative
  | _ => true
  end.

Section ReadBack.

Variable coerced : column -> value -> value.

Definition read_value (c : column) (v : value) : value :=
  match v with
  | PNone => PNone
  | PFloat x => if well_typed c v then read_float x else coerced c v
  | _ => if well_typed c v then v else coerced c v
  end.

Definition read_row (r : TrialResult) : TrialResult :=
  mkTrialResult (id r)
    (read_value (mkColumn "participant_id" (String_ 100) false participant_id)
       (participant_id r))
    (read_value (mkColumn "task_type" (String_ 50) false task_type) (task_type r))
    (read_value (mkColumn "stimulus_word" (String_ 20) false stimulus_word)
       (stimulus_word r))
    (read_value (mkColumn "stimulus_color" (String_ 20) false stimulus_color)
       (stimulus_color r))
    (read_value (mkColumn "response_time" Float_ true response_time)
       (response_time r))
    (read_value (mkColumn "key_press" (String_ 10) true key_press) (key_press r))
    (read_value (mkColumn "was_correct" Boolean_ true was_correct) (was_correct r))
    (read_value (mkColumn "avg_blink_rate" Float_ true avg_blink_rate)
       (avg_blink_rate r)).

(** The rows a query over the whole table returns. *)
Definition fetch (rows : list TrialResult) : list TrialResult :=
  map read_row rows.

End ReadBack.

(** The instance in which a value of another type comes back as written. *)
Definition as_written (c : column) (v : value) : value := v.

(** ** The field constraints of the data model, as predicates on a row *)

(** A string value is within the declared length of its column.  A
    character is one [ascii] here. *)
Definition within_length (c : column) (r : TrialResult) : bool :=
  match col_type c, col_value c r with
  | String_ n, PStr s => Nat.leb (String.length s) n
  | _, _ => true
  end.

Definition nonempty_string (v : value) : bool :=
  match v with
  | PStr s => negb (String.eqb s EmptyString)
  | _ => false
  end.

Definition meets_field_constraints (r : TrialResult) : bool :=
  nonempty_string (participant_id r) && forallb (fun c => within_length c r) columns.

(** What the handler and the SQLite schema do guarantee of a row. *)
Definition required_present (r : TrialResult) : bool :=
  truthy (participant_id r)
  && negb (is_none (task_type r))
  && negb (is_none (stimulus_word r))
  && negb (is_none (stimulus_color r)).

Definition row_admissible (r : TrialResult) : bool :=
  forallb (fun c => admissible c (col_value c r)) columns.

(** The columns filled from a trial object: all but [participant_id]. *)
Definition trial_columns : list column := tl columns.

(** A trial object whose fields are absent only where the column is
    nullable, and of their column's type where present. *)
Definition trial_admissible (t : list (string * value)) : bool :=
  forallb (fun c => admissible c (dict_get t (col_name c))) trial_columns.

(** A trial object without one of the three [nullable=False] fields. *)
Definition lacks_required (t : list (string * value)) : Prop :=
  lookup "task_type" t = None
  \/ lookup "stimulus_word" t = None
  \/ lookup "stimulus_color" t = None.

(** ** Sample requests *)

Definition stroop_trial : list (string * value) :=
  [("task_type", PStr "stroop_congruent");
   ("stimulus_word", PStr "RED");
   ("stimulus_color", PStr "red");
   ("response_time", PFloat (S754_finite false 4791830003522208 (-53)));
   ("key_press", PStr "r");
   ("was_correct", PBool true);
   ("avg_blink_rate", PFloat (S754_finite false 7993889338582630 (-49)))].

Definition scenario_request : request :=
  Json (PDict [("participant_id", PStr "P1");
               ("trials", PList [PDict stroop_trial])]).

(** A trial object with all four optional fields, whose [response_time]
    is a NaN. *)
Definition nan_trial : list (string * value) :=
  [("task_type", PStr "stroop_congruent");
   ("stimulus_word", PStr "RED");
   ("stimulus_color", PStr "red");
   ("response_time", PFloat S754_nan);
   ("key_press", PStr "r");
   ("was_correct", PBool true);
   ("avg_blink_rate", PFloat (S754_finite false 7993889338582630 (-49)))].

(** A trial object that names a participant of its own. *)
Definition foreign_trial : list (string * value) :=
  ("participant_id", PStr "P2") :: stroop_trial.

(** A trial object without [task_type]. *)
Definition untyped_trial : list (string * value) :=
  [("stimulus_word", PStr "RED"); ("stimulus_color", PStr "red")].

(** A trial object with the required fields only. *)
Definition bare_trial : list (string * value) :=
  [("task_type", PStr "stroop_congruent");
   ("stimulus_word", PStr "RED");
   ("stimulus_color", PStr "red")].

Definition submission (pid : value) (trials : value) : request :=
  Json (PDict [("participant_id", pid); ("trials", trials)]).

(** A participant identifier of 101 characters. *)
Definition long_id : string := string_of_list_ascii (repeat "a"%char 101).

(** ** The possible outcomes

    What a run of the [try] block, and a whole request, can come to. *)

Inductive try_outcome (store : Store) (rows : list TrialResult) (req : request)
  : (exn + response) * world -> Prop :=
| TrySaved (d : list (string * value)) (ds : list (list (string * value))) :
    req = Json (PDict d) ->
    truthy (dict_get d "participant_id") = true ->
    dict_get d "trials" = PList (map PDict ds) ->
    ds <> [] ->
    flush_error store rows (map (new_trial (dict_get d "participant_id")) ds) = None ->
    try_outcome store rows req
      (inr (saved_response (List.length ds)),
       mkWorld (rows ++ assign_ids (next_id rows)
                          (map (new_trial (dict_get d "participant_id")) ds)) [])
| TryMissing (d : list (string * value)) :
    req = Json (PDict d) ->
    truthy (dict_get d "participant_id") = false
    \/ truthy (dict_get d "trials") = false ->
    try_outcome store rows req (inr missing_response, mkWorld rows [])
| TryRaised (e : exn) (pending : list TrialResult) :
    try_outcome store rows req (inl e, mkWorld rows pending).

Inductive outcome (store : Store) (rows : list TrialResult) (req : request)
  : response * list TrialResult -> Prop :=
| Saved (d : list (string * value)) (ds : list (list (string * value))) :
    req = Json (PDict d) ->
    truthy (dict_get d "participant_id") = true ->
    dict_get d "trials" = PList (map PDict ds) ->
    ds <> [] ->
    flush_error store rows (map (new_trial (dict_get d "participant_id")) ds) = None ->
    outcome store rows req
      (saved_response (List.length ds),
       rows ++ assign_ids (next_id rows)
                 (map (new_trial (dict_get d "participant_id")) ds))
| Missing (d : list (string * value)) :
    req = Json (PDict d) ->
    truthy (dict_get d "participant_id") = false
    \/ truthy (dict_get d "trials") = false ->
    outcome store rows req (missing_response, rows)
| Failed (e : exn) :
    outcome store rows req (error_response e, rows).

(** ** Requests served one after the other *)

Fixpoint serve (store : Store) (rows : list TrialResult) (reqs : list request)
  : list response * list TrialResult :=
  match reqs with
  | [] => ([], rows)
  | req :: rest =>
      let (resp, rows') := post store rows req in
      let (resps, final) := serve store rows' rest in
      (resp :: resps, final)
  end.

(** The count a response reports: its [trials_saved] when it is a 201. *)
Definition trials_saved (resp : response) : Z :=
  if status resp =? 201 then
    match body resp with
    | PDict entries =>
        match dict_get entries "trials_saved" with
        | PInt n => n
        | _ => 0
        end
    | _ => 0
    end
  else 0.

(** Two trial objects that agree on the seven keys the loop reads. *)
Definition same_fields (t t' : list (string * value)) : Prop :=
  forall c, In c trial_columns -> dict_get t (col_name c) = dict_get t' (col_name c).

(** ** The text of a row (app.py, lines 38-39)

    [__repr__] is [f'<Trial {self.id} for {self.participant_id}>'].  The
    key is [None] or an integer, written in decimal.  [str_value] is
    [str] on the values a participant identifier can be; all that is used
    of it is that it leaves a string as it is. *)

Definition str_int (n : Z) : string := NilZero.string_of_int (Z.to_int n).

Definition str_id (key : option Z) : string :=
  match key with
  | Some n => str_int n
  | None => "None"
  end.

Definition repr (str_value : value -> string) (r : TrialResult) : string :=
  ("<Trial " ++ str_id (id r) ++ " for " ++ str_value (participant_id r) ++ ">")%string.

(** No character of the string is a space. *)
Fixpoint spaceless (s : string) : Prop :=
  match s with
  | EmptyString => True
  | String c rest => c <> " "%char /\ spaceless rest
  end.

(** [str] on strings, with other values left without text. *)
Definition str_of_string (v : value) : string :=
  match v with
  | PStr s => s
  | _ => EmptyString
  end.

(** * Facts about the handler *)

(** ** The loop *)

Lemma add_trial_dict (pid : value) (t : list (string * value)) (w : world) :
  add_trial pid (PDict t) w
  = (inr tt, mkWorld (table w) (session w ++ [new_trial pid t])).
Proof. reflexivity. Qed.

Lemma add_trial_not_dict (pid v : value) (w : world) :
  is_dict v = false -> add_trial pid v w = (inl (no_attribute_get v), w).
Proof. destruct v; intros H; try discriminate H; reflexivity. Qed.

Lemma for_each_dicts (pid : value) (ds : list (list (string * value))) :
  forall w,
    for_each (map PDict ds) (add_trial pid) w
    = (inr tt, mkWorld (table w) (session w ++ map (new_trial pid) ds)).
Proof.
  induction ds as [|t ds IH]; intros w; simpl.
  - rewrite app_nil_r. destruct w; reflexivity.
  - unfold bind. rewrite add_trial_dict, IH. simpl.
    rewrite <- app_assoc. reflexivity.
Qed.

Lemma for_each_first_bad (pid : value) (ds : list (list (string * value)))
      (bad : value) (rest : list value) :
  is_dict bad = false ->
  forall w,
    for_each (map PDict ds ++ bad :: rest) (add_trial pid) w
    = (inl (no_attribute_get bad),
       mkWorld (table w) (session w ++ map (new_trial pid) ds)).
Proof.
  intros Hbad. induction ds as [|t ds IH]; intros w; simpl.
  - unfold bind. rewrite (add_trial_not_dict pid bad w Hbad).
    rewrite app_nil_r. destruct w; reflexivity.
  - unfold bind. rewrite add_trial_dict, IH. simpl.
    rewrite <- app_assoc. reflexivity.
Qed.

(** A list of values is a list of dictionaries, or has a first element
    that is not one. *)
Lemma dicts_or_first_bad (items : list value) :
  (exists ds, items = map PDict ds)
  \/ (exists ds bad rest,
        items = (map PDict ds ++ bad :: rest) /\ is_dict bad = false).
Proof.
  induction items as [|v items IH].
  - left. exists []. reflexivity.
  - destruct (is_dict v) eqn:Hv.
    + destruct v; try discriminate Hv.
      destruct IH as [[ds ->] | (ds & bad & rest & -> & Hbad)].
      * left. exists (entries :: ds). reflexivity.
      * right. exists (entries :: ds), bad, rest. split; [reflexivity | exact Hbad].
    + right. exists [], v, items. split; [reflexivity | exact Hv].
Qed.

(** ** One request, case by case *)

Section Cases.

Variable store : Store.
Variable rows : list TrialResult.

Lemma post_undecodable (description : string) :
  post store rows (Undecodable description)
  = (error_response (HTTPException description), rows).
Proof. reflexivity. Qed.

Lemma post_not_object (data : value) :
  is_dict data = false ->
  post store rows (Json data) = (error_response (no_attribute_get data), rows).
Proof. destruct data; intros H; try discriminate H; reflexivity. Qed.

Lemma post_missing (d : list (string * value)) :
  truthy (dict_get d "participant_id") = false
  \/ truthy (dict_get d "trials") = false ->
  post store rows (Json (PDict d)) = (missing_response, rows).
Proof.
  intros H. unfold post, submit_data, try_except, submit_data_try, bind. simpl.
  assert (Hc : negb (truthy (dict_get d "participant_id"))
               || negb (truthy (dict_get d "trials")) = true).
  { destruct H as [-> | ->]; [reflexivity | apply orb_true_r]. }
  rewrite Hc. reflexivity.
Qed.

Lemma post_objects (d : list (string * value)) (ds : list (list (string * value))) :
  truthy (dict_get d "participant_id") = true ->
  dict_get d "trials" = PList (map PDict ds) ->
  ds <> [] ->
  post store rows (Json (PDict d))
  = match flush_error store rows (map (new_trial (dict_get d "participant_id")) ds) with
    | Some e => (error_response e, rows)
    | None =>
        (saved_response (List.length ds),
         rows ++ assign_ids (next_id rows)
                   (map (new_trial (dict_get d "participant_id")) ds))
    end.
Proof.
  intros Hpid Htrials Hne.
  assert (Ht : truthy (PList (map PDict ds)) = true)
    by (destruct ds; [congruence | reflexivity]).
  unfold post, submit_data, try_except, submit_data_try, bind.
  cbn [get_json py_get ret]. rewrite Hpid, Htrials, Ht.
  cbn [negb orb py_iter ret]. rewrite for_each_dicts.
  unfold session_commit. cbn [table session app].
  destruct (flush_error store rows
              (map (new_trial (dict_get d "participant_id")) ds)).
  - reflexivity.
  - cbn [py_len ret table]. rewrite length_map. reflexivity.
Qed.

Lemma post_bad_element (d : list (string * value)) (ds : list (list (string * value)))
      (bad : value) (rest : list value) :
  truthy (dict_get d "participant_id") = true ->
  dict_get d "trials" = PList (map PDict ds ++ bad :: rest) ->
  is_dict bad = false ->
  post store rows (Json (PDict d)) = (error_response (no_attribute_get bad), rows).
Proof.
  intros Hpid Htrials Hbad.
  unfold post, submit_data, try_except, submit_data_try, bind. simpl.
  rewrite Hpid, Htrials.
  assert (Ht : truthy (PList (map PDict ds ++ bad :: rest)) = true)
    by (destruct ds; reflexivity).
  rewrite Ht. cbn [negb orb py_iter ret].
  rewrite (for_each_first_bad _ _ _ _ Hbad). reflexivity.
Qed.

End Cases.

(** ** Every run of the [try] block *)

Lemma try_block_outcome (store : Store) (rows : list TrialResult) (req : request) :
  try_outcome store rows req (submit_data_try store req (mkWorld rows [])).
Proof.
  destruct req as [data | description]; [|apply TryRaised].
  destruct data as [| b | n | x | s | items | d]; try apply TryRaised.
  unfold submit_data_try, bind. cbn [get_json py_get ret].
  destruct (truthy (dict_get d "participant_id")) eqn:Hpid;
    [|apply (TryMissing _ _ _ d); auto].
  destruct (truthy (dict_get d "trials")) eqn:Ht;
    [|apply (TryMissing _ _ _ d); auto].
  cbn [negb orb].
  destruct (dict_get d "trials") as [| b | n | x | s | items | es] eqn:E;
    try apply TryRaised.
  - destruct s as [|c s]; [discriminate Ht|]. apply TryRaised.
  - cbn [py_iter ret].
    destruct (dicts_or_first_bad items) as [[ds ->] | (ds & bad & rest & -> & Hbad)].
    + rewrite for_each_dicts. unfold session_commit. cbn [table session app].
      destruct (flush_error store rows
                  (map (new_trial (dict_get d "participant_id")) ds)) eqn:F;
        [apply TryRaised|].
      cbn [py_len ret]. rewrite length_map.
      apply (TrySaved _ _ _ d ds); auto.
      intros ->. discriminate Ht.
    + rewrite (for_each_first_bad _ _ _ _ Hbad). apply TryRaised.
  - destruct es as [|[k v] es]; [discriminate Ht|]. apply TryRaised.
Qed.

Lemma post_unfold (store : Store) (rows : list TrialResult) (req : request) :
  post store rows req
  = match submit_data_try store req (mkWorld rows []) with
    | (inr resp, w) => (resp, table w)
    | (inl e, w) => (error_response e, table w)
    end.
Proof.
  unfold post, submit_data, try_except.
  destruct (submit_data_try store req (mkWorld rows [])) as [[e | resp] w];
    reflexivity.
Qed.

(** ** Every request *)

Lemma post_outcome (store : Store) (rows : list TrialResult) (req : request) :
  outcome store rows req (post store rows req).
Proof.
  rewrite post_unfold.
  destruct (try_block_outcome store rows req) as [d ds Hreq Hpid Ht Hne Hf | d Hreq H | e pending].
  - apply (Saved _ _ _ d ds); assumption.
  - apply (Missing _ _ _ d); assumption.
  - apply Failed.
Qed.

(** ** Lists of rows *)

Lemma assign_ids_length (rows : list TrialResult) :
  forall n, List.length (assign_ids n rows) = List.length rows.
Proof. induction rows as [|r rows IH]; intros n; simpl; [|rewrite IH]; reflexivity. Qed.

Lemma assign_ids_nth (rows : list TrialResult) :
  forall (n : Z) (i : nat) (r : TrialResult),
    nth_error rows i = Some r ->
    nth_error (assign_ids n rows) i = Some (with_id (n + Z.of_nat i) r).
Proof.
  induction rows as [|r0 rows IH]; intros n i r H.
  - destruct i; discriminate H.
  - destruct i as [|i]; simpl in *.
    + injection H as ->. rewrite Z.add_0_r. reflexivity.
    + rewrite (IH (n + 1) i r H). f_equal. f_equal. lia.
Qed.

Lemma assign_ids_Forall (P : TrialResult -> Prop) (rows : list TrialResult) :
  (forall n r, P r -> P (with_id n r)) ->
  Forall P rows -> forall n, Forall P (assign_ids n rows).
Proof.
  intros HP H. induction H as [|r rows Hr _ IH]; intros n; simpl; constructor; auto.
Qed.

(** ** The SQLite store *)

Lemma first_error_none {A} (check : A -> option exn) (xs : list A) :
  first_error check xs = None <-> Forall (fun x => check x = None) xs.
Proof.
  induction xs as [|x xs IH]; simpl.
  - split; auto.
  - destruct (check x) eqn:E; split; intros H.
    + discriminate H.
    + inversion H; congruence.
    + constructor; [exact E | apply IH, H].
    + inversion H; subst. apply IH. assumption.
Qed.

Lemma first_error_some {A} (check : A -> option exn) (xs : list A) :
  Exists (fun x => check x <> None) xs -> exists e, first_error check xs = Some e.
Proof.
  intros H. destruct (first_error check xs) as [e|] eqn:E; [eauto|].
  apply first_error_none in E. exfalso.
  induction H as [x xs Hx | x xs _ IH]; inversion E; subst; auto.
Qed.

Section SqliteFacts.

Variable mistyped : column -> value -> option exn.

Lemma admissible_column (r : TrialResult) (c : column) :
  admissible c (col_value c r) = true -> column_error mistyped r c = None.
Proof.
  unfold admissible, column_error.
  destruct (col_value c r); intros H; rewrite H; reflexivity.
Qed.

Lemma null_column_rejected (r : TrialResult) (c : column) :
  nullable c = false -> col_value c r = PNone ->
  column_error mistyped r c <> None.
Proof.
  intros Hn Hv. unfold column_error. rewrite Hv, Hn. discriminate.
Qed.

Lemma admissible_row_accepted (r : TrialResult) :
  row_admissible r = true -> insert_error mistyped r = None.
Proof.
  unfold row_admissible, insert_error. intros H.
  apply first_error_none. apply Forall_forall. intros c Hc.
  apply admissible_column. apply (proj1 (forallb_forall _ _) H c Hc).
Qed.

Lemma new_trial_admissible (pid : string) (t : list (string * value)) :
  trial_admissible t = true ->
  row_admissible (new_trial (PStr pid) t) = true.
Proof.
  intros H. unfold row_admissible, columns. cbn [forallb].
  unfold trial_admissible, trial_columns, columns in H. cbn [tl forallb] in H.
  exact H.
Qed.

Lemma accepted_row_required (r : TrialResult) :
  insert_error mistyped r = None ->
  is_none (task_type r) = false
  /\ is_none (stimulus_word r) = false
  /\ is_none (stimulus_color r) = false.
Proof.
  unfold insert_error. intros H.
  pose proof (proj1 (first_error_none _ _) H) as Hall.
  pose proof (proj1 (Forall_forall _ _) Hall) as Hin. clear H Hall.
  assert (Hcol : forall c, In c columns -> nullable c = false ->
                           is_none (col_value c r) = false).
  { intros c Hc Hn. destruct (col_value c r) eqn:Hv; try reflexivity.
    exfalso. exact (null_column_rejected r c Hn Hv (Hin c Hc)). }
  repeat split.
  - apply (Hcol (mkColumn "task_type" (String_ 50) false task_type));
      [cbn; tauto | reflexivity].
  - apply (Hcol (mkColumn "stimulus_word" (String_ 20) false stimulus_word));
      [cbn; tauto | reflexivity].
  - apply (Hcol (mkColumn "stimulus_color" (String_ 20) false stimulus_color));
      [cbn; tauto | reflexivity].
Qed.

Lemma lacking_row_rejected (pid : value) (t : list (string * value)) :
  lacks_required t -> insert_error mistyped (new_trial pid t) <> None.
Proof.
  intros H E. apply accepted_row_required in E.
  destruct E as (E1 & E2 & E3). cbn in E1, E2, E3.
  unfold dict_get in E1, E2, E3.
  destruct H as [H | [H | H]]; rewrite H in *; discriminate.
Qed.

End SqliteFacts.

(** * The claims *)

(** C1.  A request whose JSON object has a non-empty [participant_id] and a
    non-empty [trials] list of N trial objects, and whose flush succeeds,
    is answered 201 with [{"status": "success", "trials_saved": N}], and the
    table afterwards is the old table followed by exactly N new rows, each
    carrying that [participant_id]. *)
Theorem valid_submission_saved
    (store : Store) (rows : list TrialResult)
    (d : list (string * value)) (ds : list (list (string * value))) :
  truthy (dict_get d "participant_id") = true ->
  dict_get d "trials" = PList (map PDict ds) ->
  ds <> [] ->
  flush_error store rows (map (new_trial (dict_get d "participant_id")) ds) = None ->
  exists new,
    post store rows (Json (PDict d))
    = (mkResponse
         (PDict [("status", PStr "success");
                 ("trials_saved", PInt (Z.of_nat (List.length ds)))])
         201,
       rows ++ new)
    /\ List.length new = List.length ds
    /\ Forall (fun r => participant_id r = dict_get d "participant_id") new.
Proof.
  intros Hpid Ht Hne Hflush.
  exists (assign_ids (next_id rows)
            (map (new_trial (dict_get d "participant_id")) ds)).
  split; [|split].
  - rewrite (post_objects store rows d ds Hpid Ht Hne), Hflush. reflexivity.
  - rewrite assign_ids_length, length_map. reflexivity.
  - apply assign_ids_Forall; [intros n r H; exact H|].
    apply Forall_forall. intros r Hr. apply in_map_iff in Hr.
    destruct Hr as (t & <- & _). reflexivity.
Qed.

Lemma valid_submission_saved_witness :
  exists new,
    post (sqlite lenient) [] scenario_request
    = (mkResponse
         (PDict [("status", PStr "success"); ("trials_saved", PInt 1)]) 201,
       [] ++ new)
    /\ List.length new = 1%nat
    /\ Forall (fun r => participant_id r = PStr "P1") new.
Proof.
  apply (valid_submission_saved (sqlite lenient) []
           [("participant_id", PStr "P1"); ("trials", PList [PDict stroop_trial])]
           [stroop_trial]);
    [reflexivity | reflexivity | discriminate | reflexivity].
Defined.

(** The concrete scenario of the specification: one stored row with the
    submitted values and an assigned identifier. *)
Example scenario_stored :
  post (sqlite lenient) [] scenario_request
  = (saved_response 1,
     [mkTrialResult (Some 1) (PStr "P1") (PStr "stroop_congruent") (PStr "RED")
        (PStr "red") (PFloat (S754_finite false 4791830003522208 (-53)))
        (PStr "r") (PBool true)
        (PFloat (S754_finite false 7993889338582630 (-49)))]).
Proof. reflexivity. Qed.

(** C2.  A request whose JSON object lacks [participant_id] or has it
    empty, or lacks [trials] or has it an empty list, is answered 400 with
    exactly [{"status": "error", "message": "Missing participant_id or
    trials data"}], and the table is unchanged. *)
Theorem missing_fields_rejected
    (store : Store) (rows : list TrialResult) (d : list (string * value)) :
  lookup "participant_id" d = None
  \/ lookup "participant_id" d = Some (PStr EmptyString)
  \/ lookup "trials" d = None
  \/ lookup "trials" d = Some (PList []) ->
  post store rows (Json (PDict d))
  = (mkResponse
       (PDict [("status", PStr "error");
               ("message", PStr "Missing participant_id or trials data")])
       400,
     rows).
Proof.
  intros H. apply post_missing. unfold dict_get.
  destruct H as [H | [H | [H | H]]]; rewrite H; auto.
Qed.

Lemma missing_fields_rejected_witness :
  post (sqlite lenient) [] (Json (PDict [("participant_id", PStr "P1"); ("trials", PList [])]))
  = (mkResponse
       (PDict [("status", PStr "error");
               ("message", PStr "Missing participant_id or trials data")])
       400,
     []).
Proof.
  apply (missing_fields_rejected (sqlite lenient) []
           [("participant_id", PStr "P1"); ("trials", PList [])]).
  right; right; right. reflexivity.
Defined.

(** C3.  If the [try] block raises [e], whether while rows are built or
    while they are flushed, the handler answers 500 with
    [{"status": "error", "message": str(e)}], no pending row is left in the
    session and the table is what it was; and after any request the table
    is either unchanged or extended by the rows of every trial of the
    batch. *)
Theorem failure_rolls_back
    (store : Store) (rows : list TrialResult) (req : request) :
  (forall e w,
      submit_data_try store req (mkWorld rows []) = (inl e, w) ->
      submit_data store req (mkWorld rows [])
      = (mkResponse
           (PDict [("status", PStr "error"); ("message", PStr (py_str e))]) 500,
         mkWorld rows [])
      /\ snd (post store rows req) = rows)
  /\ (snd (post store rows req) = rows
      \/ exists d ds,
           req = Json (PDict d)
           /\ dict_get d "trials" = PList (map PDict ds)
           /\ snd (post store rows req)
              = rows ++ assign_ids (next_id rows)
                          (map (new_trial (dict_get d "participant_id")) ds)).
Proof.
  split.
  - intros e w H.
    pose proof (try_block_outcome store rows req) as O. rewrite H in O.
    inversion O; subst.
    split.
    + unfold submit_data, try_except. rewrite H. reflexivity.
    + rewrite post_unfold, H. reflexivity.
  - destruct (post_outcome store rows req) as [d ds Hreq Hpid Ht Hne Hf | d Hreq H | e].
    + right. exists d, ds. auto.
    + left. reflexivity.
    + left. reflexivity.
Qed.

Lemma failure_rolls_back_witness :
  submit_data_try (sqlite lenient)
    (submission (PStr "P1") (PList [PDict stroop_trial; PInt 4])) (mkWorld [] [])
  = (inl (no_attribute_get (PInt 4)),
     mkWorld [] [new_trial (PStr "P1") stroop_trial])
  /\ submit_data (sqlite lenient)
       (submission (PStr "P1") (PList [PDict stroop_trial; PInt 4])) (mkWorld [] [])
     = (mkResponse
          (PDict [("status", PStr "error");
                  ("message", PStr "'int' object has no attribute 'get'")]) 500,
        mkWorld [] []).
Proof.
  split; [reflexivity|].
  apply (proj1 (failure_rolls_back (sqlite lenient) []
                  (submission (PStr "P1") (PList [PDict stroop_trial; PInt 4])))
           (no_attribute_get (PInt 4))
           (mkWorld [] [new_trial (PStr "P1") stroop_trial])).
  reflexivity.
Defined.

(** A store fault during the commit of a well-formed batch: nothing of the
    batch is stored. *)
Example store_fault_nothing_saved :
  post locked [] scenario_request
  = (error_response (OperationalError "database is locked"), []).
Proof. reflexivity. Qed.

(** C4, as stated, fails: a valid submission whose single trial object has
    no [task_type] gets a row with [task_type = None], is answered 500, and
    nothing is stored, because the column is declared [nullable=False]. *)
Lemma absent_task_type_not_saved :
  truthy (PStr "P1") = true
  /\ lookup "task_type" untyped_trial = None
  /\ task_type (new_trial (PStr "P1") untyped_trial) = PNone
  /\ post (sqlite lenient) [] (submission (PStr "P1") (PList [PDict untyped_trial]))
     = (error_response (IntegrityError "task_type"), []).
Proof. repeat split. Qed.

(** C4, amended.  On the SQLite store, for a submission with a non-empty
    string [participant_id] and a non-empty list of trial objects:
    every field absent from a trial object is [None] in the row built for
    it; if every trial carries string [task_type], [stimulus_word] and
    [stimulus_color] and each of its optional fields is absent or of its
    column's type, the whole batch is stored and counted; if some trial
    lacks one of the three required fields, the answer is 500 and nothing
    is stored. *)
Theorem optional_fields_may_be_absent
    (mistyped : column -> value -> option exn)
    (rows : list TrialResult) (d : list (string * value)) (pid : string)
    (ds : list (list (string * value))) :
  dict_get d "participant_id" = PStr pid ->
  pid <> EmptyString ->
  dict_get d "trials" = PList (map PDict ds) ->
  ds <> [] ->
  (forall t c,
      In t ds -> In c trial_columns -> lookup (col_name c) t = None ->
      col_value c (new_trial (PStr pid) t) = PNone)
  /\ (Forall (fun t => trial_admissible t = true) ds ->
      post (sqlite mistyped) rows (Json (PDict d))
      = (saved_response (List.length ds),
         rows ++ assign_ids (next_id rows) (map (new_trial (PStr pid)) ds)))
  /\ (Exists lacks_required ds ->
      exists e,
        post (sqlite mistyped) rows (Json (PDict d)) = (error_response e, rows)).
Proof.
  intros Hpid Hne Ht Hds.
  assert (Htruthy : truthy (dict_get d "participant_id") = true).
  { rewrite Hpid. destruct pid; [congruence | reflexivity]. }
  pose proof (post_objects (sqlite mistyped) rows d ds Htruthy Ht Hds) as Hpost.
  rewrite Hpid in Hpost. cbn [flush_error sqlite] in Hpost.
  split; [|split].
  - intros t c _ Hc Habsent.
    unfold trial_columns, columns in Hc. cbn [tl] in Hc.
    repeat (destruct Hc as [<- | Hc];
            [cbn in *; unfold dict_get; rewrite Habsent; reflexivity|]).
    destruct Hc.
  - intros Hall. rewrite Hpost.
    assert (E : first_error (insert_error mistyped)
                  (map (new_trial (PStr pid)) ds) = None).
    { apply first_error_none. apply Forall_map.
      apply Forall_impl with (2 := Hall). intros t Hadm.
      apply admissible_row_accepted, new_trial_admissible, Hadm. }
    rewrite E. reflexivity.
  - intros Hex.
    destruct (first_error_some (insert_error mistyped)
                (map (new_trial (PStr pid)) ds)) as [e E].
    { apply Exists_map. apply Exists_impl with (2 := Hex).
      intros t Hlack. apply lacking_row_rejected, Hlack. }
    exists e. rewrite Hpost, E. reflexivity.
Qed.

Lemma optional_fields_may_be_absent_witness :
  response_time (new_trial (PStr "P1") bare_trial) = PNone
  /\ post (sqlite lenient) [] (submission (PStr "P1") (PList [PDict bare_trial]))
     = (saved_response 1,
        [] ++ assign_ids (next_id []) [new_trial (PStr "P1") bare_trial])
  /\ exists e,
       post (sqlite lenient) []
         (submission (PStr "P1") (PList [PDict bare_trial; PDict untyped_trial]))
       = (error_response e, []).
Proof.
  split; [|split].
  - apply (proj1 (optional_fields_may_be_absent lenient []
                    [("participant_id", PStr "P1"); ("trials", PList [PDict bare_trial])]
                    "P1" [bare_trial] eq_refl ltac:(discriminate) eq_refl
                    ltac:(discriminate))
             bare_trial
             (mkColumn "response_time" Float_ true response_time)).
    + left. reflexivity.
    + cbn. tauto.
    + reflexivity.
  - apply (proj1 (proj2 (optional_fields_may_be_absent lenient []
                    [("participant_id", PStr "P1"); ("trials", PList [PDict bare_trial])]
                    "P1" [bare_trial] eq_refl ltac:(discriminate) eq_refl
                    ltac:(discriminate)))).
    repeat constructor.
  - apply (proj2 (proj2 (optional_fields_may_be_absent lenient []
                    [("participant_id", PStr "P1");
                     ("trials", PList [PDict bare_trial; PDict untyped_trial])]
                    "P1" [bare_trial; untyped_trial] eq_refl ltac:(discriminate)
                    eq_refl ltac:(discriminate)))).
    right. left. left. reflexivity.
Defined.

(** C5, as stated, fails: a submission whose [participant_id] has 101
    characters is stored with that value, and the stored row breaks the
    100-character limit. *)
Lemma long_participant_id_stored :
  exists r,
    post (sqlite lenient) [] (submission (PStr long_id) (PList [PDict stroop_trial]))
    = (saved_response 1, [r])
    /\ participant_id r = PStr long_id
    /\ String.length long_id = 101%nat
    /\ meets_field_constraints r = false.
Proof.
  eexists. split; [reflexivity|]. repeat split.
Qed.

(** C5, amended.  On the SQLite store the rows of the table keep this
    invariant through every request: [participant_id] is non-empty
    (truthy) and [task_type], [stimulus_word] and [stimulus_color] are not
    [None].  The declared lengths are not part of it. *)
Theorem stored_rows_have_required_fields
    (mistyped : column -> value -> option exn)
    (rows : list TrialResult) (req : request) :
  Forall (fun r => required_present r = true) rows ->
  Forall (fun r => required_present r = true) (snd (post (sqlite mistyped) rows req)).
Proof.
  intros Hrows.
  destruct (post_outcome (sqlite mistyped) rows req)
    as [d ds Hreq Hpid Ht Hne Hf | d Hreq H | e];
    cbn [snd]; try exact Hrows.
  apply Forall_app. split; [exact Hrows|].
  apply assign_ids_Forall; [intros n r H; exact H|].
  cbn [flush_error sqlite] in Hf. apply first_error_none in Hf.
  apply Forall_map in Hf. apply Forall_map.
  apply Forall_impl with (2 := Hf).
  intros t Hr. apply accepted_row_required in Hr. destruct Hr as (H1 & H2 & H3).
  unfold required_present. rewrite H1, H2, H3.
  cbn [participant_id new_trial]. rewrite Hpid. reflexivity.
Qed.

Lemma stored_rows_have_required_fields_witness :
  Forall (fun r => required_present r = true)
    (snd (post (sqlite lenient) [] scenario_request)).
Proof.
  apply (stored_rows_have_required_fields lenient [] scenario_request).
  constructor.
Defined.

(** C6.  After any request the table is the old table followed by new
    rows: every row that was there is still there, at its place and with
    the same field values. *)
Theorem table_append_only (store : Store) (rows : list TrialResult) (req : request) :
  exists new,
    snd (post store rows req) = rows ++ new
    /\ forall i r,
         nth_error rows i = Some r ->
         nth_error (snd (post store rows req)) i = Some r.
Proof.
  assert (H : exists new, snd (post store rows req) = rows ++ new).
  { destruct (post_outcome store rows req) as [d ds _ _ _ _ _ | d _ _ | e]; cbn [snd].
    - eexists; reflexivity.
    - exists []. symmetry. apply app_nil_r.
    - exists []. symmetry. apply app_nil_r. }
  destruct H as [new H]. exists new. split; [exact H|].
  intros i r Hi. rewrite H, nth_error_app1; [exact Hi|].
  apply nth_error_Some. congruence.
Qed.

(** When a submission is stored, the row written for a trial object that
    has all four optional fields is written with the submitted values. *)
Lemma optional_fields_written
    (store : Store) (rows : list TrialResult)
    (d : list (string * value)) (items : list value)
    (i : nat) (t : list (string * value)) (rt kp wc abr : value) :
  dict_get d "trials" = PList items ->
  nth_error items i = Some (PDict t) ->
  lookup "response_time" t = Some rt ->
  lookup "key_press" t = Some kp ->
  lookup "was_correct" t = Some wc ->
  lookup "avg_blink_rate" t = Some abr ->
  status (fst (post store rows (Json (PDict d)))) = 201 ->
  exists r,
    nth_error (snd (post store rows (Json (PDict d)))) (List.length rows + i) = Some r
    /\ response_time r = rt
    /\ key_press r = kp
    /\ was_correct r = wc
    /\ avg_blink_rate r = abr.
Proof.
  intros Hitems Hi Hrt Hkp Hwc Habr Hstatus.
  destruct (post_outcome store rows (Json (PDict d)))
    as [d' ds Hreq Hpid Ht Hne Hf | d' Hreq H | e];
    cbn [fst snd status saved_response missing_response error_response] in *;
    try discriminate Hstatus.
  injection Hreq as <-.
  rewrite Hitems in Ht. injection Ht as ->.
  rewrite nth_error_map in Hi.
  destruct (nth_error ds i) as [t'|] eqn:Hds; [|discriminate Hi].
  injection Hi as ->.
  exists (with_id (next_id rows + Z.of_nat i)
            (new_trial (dict_get d "participant_id") t)).
  split.
  - rewrite nth_error_app2 by lia.
    replace (List.length rows + i - List.length rows)%nat with i by lia.
    apply assign_ids_nth. rewrite nth_error_map, Hds. reflexivity.
  - cbn. unfold dict_get. rewrite Hrt, Hkp, Hwc, Habr. auto.
Qed.

(** C7, as stated, fails: a trial object with all four optional fields
    present whose [response_time] is a NaN is stored (201), and reading
    the stored row back gives [None] for it. *)
Lemma nan_response_time_read_back_as_none :
  lookup "response_time" nan_trial = Some (PFloat S754_nan)
  /\ lookup "key_press" nan_trial = Some (PStr "r")
  /\ lookup "was_correct" nan_trial = Some (PBool true)
  /\ lookup "avg_blink_rate" nan_trial
     = Some (PFloat (S754_finite false 7993889338582630 (-49)))
  /\ fst (post (sqlite lenient) [] (submission (PStr "P1") (PList [PDict nan_trial])))
     = saved_response 1
  /\ map response_time
       (fetch as_written
          (snd (post (sqlite lenient) []
                  (submission (PStr "P1") (PList [PDict nan_trial])))))
     = [PNone].
Proof. repeat split. Qed.

(** C7, amended.  When a submission is stored (the answer is 201), for a
    trial object whose four optional fields are present with values of
    their column's type ([response_time] and [avg_blink_rate] floats,
    [key_press] a string, [was_correct] a boolean), reading the stored row
    back gives the submitted [key_press] and [was_correct], and the
    submitted [response_time] and [avg_blink_rate] except that a NaN comes
    back as [None] and a negative zero as zero. *)
Theorem optional_fields_read_back
    (coerced : column -> value -> value)
    (store : Store) (rows : list TrialResult)
    (d : list (string * value)) (items : list value)
    (i : nat) (t : list (string * value))
    (rt abr : spec_float) (kp : string) (wc : bool) :
  dict_get d "trials" = PList items ->
  nth_error items i = Some (PDict t) ->
  lookup "response_time" t = Some (PFloat rt) ->
  lookup "key_press" t = Some (PStr kp) ->
  lookup "was_correct" t = Some (PBool wc) ->
  lookup "avg_blink_rate" t = Some (PFloat abr) ->
  status (fst (post store rows (Json (PDict d)))) = 201 ->
  exists r,
    nth_error (fetch coerced (snd (post store rows (Json (PDict d)))))
      (List.length rows + i) = Some r
    /\ key_press r = PStr kp
    /\ was_correct r = PBool wc
    /\ response_time r = read_float rt
    /\ avg_blink_rate r = read_float abr
    /\ (exact_float rt = true -> response_time r = PFloat rt)
    /\ (exact_float abr = true -> avg_blink_rate r = PFloat abr).
Proof.
  intros Hitems Hi Hrt Hkp Hwc Habr Hstatus.
  destruct (optional_fields_written store rows d items i t _ _ _ _
              Hitems Hi Hrt Hkp Hwc Habr Hstatus)
    as (r0 & Hr0 & Ert & Ekp & Ewc & Eabr).
  exists (read_row coerced r0).
  split; [unfold fetch; rewrite nth_error_map, Hr0; reflexivity|].
  cbn [read_row key_press was_correct response_time avg_blink_rate].
  rewrite Ert, Ekp, Ewc, Eabr. cbn.
  repeat split.
  - intros Hex. destruct rt as [[|] | | |]; try discriminate Hex; reflexivity.
  - intros Hex. destruct abr as [[|] | | |]; try discriminate Hex; reflexivity.
Qed.

Lemma optional_fields_read_back_witness :
  exists r,
    nth_error (fetch as_written (snd (post (sqlite lenient) [] scenario_request)))
      (List.length (@nil TrialResult) + 0) = Some r
    /\ key_press r = PStr "r"
    /\ was_correct r = PBool true
    /\ response_time r = read_float (S754_finite false 4791830003522208 (-53))
    /\ avg_blink_rate r = read_float (S754_finite false 7993889338582630 (-49))
    /\ (exact_float (S754_finite false 4791830003522208 (-53)) = true ->
        response_time r = PFloat (S754_finite false 4791830003522208 (-53)))
    /\ (exact_float (S754_finite false 7993889338582630 (-49)) = true ->
        avg_blink_rate r = PFloat (S754_finite false 7993889338582630 (-49))).
Proof.
  apply (optional_fields_read_back as_written (sqlite lenient) []
           [("participant_id", PStr "P1"); ("trials", PList [PDict stroop_trial])]
           [PDict stroop_trial] 0 stroop_trial);
    reflexivity.
Defined.

(** C8.  Whatever the request, a body that does not decode and malformed
    trial elements included, the handler returns, and what it returns is
    one of the three responses: 201 with the count, 400 with the fixed
    message, or 500 with the description of the exception. *)
Theorem always_answers (store : Store) (rows : list TrialResult) (req : request) :
  (exists n : nat,
      fst (post store rows req)
      = mkResponse
          (PDict [("status", PStr "success"); ("trials_saved", PInt (Z.of_nat n))])
          201)
  \/ fst (post store rows req)
     = mkResponse
         (PDict [("status", PStr "error");
                 ("message", PStr "Missing participant_id or trials data")])
         400
  \/ (exists e : exn,
        fst (post store rows req)
        = mkResponse
            (PDict [("status", PStr "error"); ("message", PStr (py_str e))])
            500).
Proof.
  destruct (post_outcome store rows req) as [d ds _ _ _ _ _ | d _ _ | e]; cbn [fst].
  - left. exists (List.length ds). reflexivity.
  - right. left. reflexivity.
  - right. right. exists e. reflexivity.
Qed.

(** C9.  Every row a request adds carries the [participant_id] of the
    request's top level, whatever [participant_id] its trial object may
    name. *)
Theorem rows_carry_request_participant
    (store : Store) (rows : list TrialResult) (d : list (string * value)) :
  exists new,
    snd (post store rows (Json (PDict d))) = rows ++ new
    /\ Forall (fun r => participant_id r = dict_get d "participant_id") new.
Proof.
  destruct (post_outcome store rows (Json (PDict d)))
    as [d' ds Hreq Hpid Ht Hne Hf | d' Hreq H | e]; cbn [snd].
  - injection Hreq as <-. eexists. split; [reflexivity|].
    apply assign_ids_Forall; [intros n r H; exact H|].
    apply Forall_map. apply Forall_forall. intros t _. reflexivity.
  - exists []. split; [symmetry; apply app_nil_r | constructor].
  - exists []. split; [symmetry; apply app_nil_r | constructor].
Qed.

(** A trial object naming participant P2, submitted by P1, is stored under P1. *)
Example foreign_trial_stored_under_request :
  lookup "participant_id" foreign_trial = Some (PStr "P2")
  /\ map participant_id
       (snd (post (sqlite lenient) [] (submission (PStr "P1") (PList [PDict foreign_trial]))))
     = [PStr "P1"].
Proof. split; reflexivity. Qed.

(** C10, as stated, fails: with [participant_id] absent, a [trials] list of
    numbers is answered with the 400 validation error. *)
Lemma numbers_without_participant_rejected :
  truthy (PList [PInt 1; PInt 2]) = true
  /\ Forall (fun v => is_dict v = false) [PInt 1; PInt 2]
  /\ post (sqlite lenient) [] (Json (PDict [("trials", PList [PInt 1; PInt 2])]))
     = (missing_response, []).
Proof. repeat split; repeat constructor. Qed.

(** C10, amended.  For a request whose [participant_id] is truthy and
    whose [trials] is truthy but is not a list of dictionaries, the answer
    is not the 400 validation error: it is 500, carrying the failed
    [get] lookup on the first element that is not a dictionary (or the
    failed iteration, when [trials] cannot be iterated), and the table is
    unchanged. *)
Theorem non_object_trials_fail
    (store : Store) (rows : list TrialResult) (d : list (string * value)) :
  truthy (dict_get d "participant_id") = true ->
  truthy (dict_get d "trials") = true ->
  (forall ds, dict_get d "trials" <> PList (map PDict ds)) ->
  exists e,
    post store rows (Json (PDict d))
    = (mkResponse
         (PDict [("status", PStr "error"); ("message", PStr (py_str e))]) 500,
       rows)
    /\ ((exists v, is_dict v = false /\ e = no_attribute_get v)
        \/ e = not_iterable (dict_get d "trials")).
Proof.
  intros Hpid Ht Hnot.
  destruct (dict_get d "trials") as [| b | n | x | s | items | es] eqn:E.
  - discriminate Ht.
  - exists (not_iterable (PBool b)). split; [|right; reflexivity].
    unfold post, submit_data, try_except, submit_data_try, bind.
    cbn [get_json py_get ret]. rewrite Hpid, E, Ht. reflexivity.
  - exists (not_iterable (PInt n)). split; [|right; reflexivity].
    unfold post, submit_data, try_except, submit_data_try, bind.
    cbn [get_json py_get ret]. rewrite Hpid, E, Ht. reflexivity.
  - exists (not_iterable (PFloat x)). split; [|right; reflexivity].
    unfold post, submit_data, try_except, submit_data_try, bind.
    cbn [get_json py_get ret]. rewrite Hpid, E, Ht. reflexivity.
  - destruct s as [|c s]; [discriminate Ht|].
    exists (no_attribute_get (PStr (String c EmptyString))).
    split; [|left; eexists; split; [|reflexivity]; reflexivity].
    unfold post, submit_data, try_except, submit_data_try, bind.
    cbn [get_json py_get ret]. rewrite Hpid, E. reflexivity.
  - destruct (dicts_or_first_bad items) as [[ds ->] | (ds & bad & rest & -> & Hbad)].
    + exfalso. exact (Hnot ds eq_refl).
    + exists (no_attribute_get bad).
      split; [|left; exists bad; split; [exact Hbad | reflexivity]].
      apply (post_bad_element store rows d ds bad rest Hpid E Hbad).
  - destruct es as [|[k v] es]; [discriminate Ht|].
    exists (no_attribute_get (PStr k)).
    split; [|left; eexists; split; [|reflexivity]; reflexivity].
    unfold post, submit_data, try_except, submit_data_try, bind.
    cbn [get_json py_get ret]. rewrite Hpid, E. reflexivity.
Qed.

Lemma non_object_trials_fail_witness :
  exists e,
    post (sqlite lenient) [] (submission (PStr "P1") (PList [PInt 1; PInt 2]))
    = (mkResponse
         (PDict [("status", PStr "error"); ("message", PStr (py_str e))]) 500,
       [])
    /\ ((exists v, is_dict v = false /\ e = no_attribute_get v)
        \/ e = not_iterable (PList [PInt 1; PInt 2])).
Proof.
  apply (non_object_trials_fail (sqlite lenient) []
           [("participant_id", PStr "P1"); ("trials", PList [PInt 1; PInt 2])]);
    [reflexivity | reflexivity |].
  intros [|t ds] H; discriminate H.
Defined.

(** * Further properties of the handler *)

(** ** When each status is returned *)

(** X1.  The answer is 201 exactly when the body is a JSON object whose
    [participant_id] is truthy, whose [trials] is a non-empty list of
    dictionaries, and the flush of the rows built from them raises
    nothing. *)
Theorem status_201_iff (store : Store) (rows : list TrialResult) (req : request) :
  status (fst (post store rows req)) = 201
  <-> exists d ds,
        req = Json (PDict d)
        /\ truthy (dict_get d "participant_id") = true
        /\ dict_get d "trials" = PList (map PDict ds)
        /\ ds <> []
        /\ flush_error store rows
             (map (new_trial (dict_get d "participant_id")) ds) = None.
Proof.
  split.
  - intros H.
    destruct (post_outcome store rows req) as [d ds Hreq Hpid Ht Hne Hf | d Hreq Hm | e];
      cbn in H; try discriminate H.
    exists d, ds. auto.
  - intros (d & ds & -> & Hpid & Ht & Hne & Hf).
    rewrite (post_objects store rows d ds Hpid Ht Hne), Hf. reflexivity.
Qed.

(** X2.  The answer is 400 exactly when the body is a JSON object in which
    [participant_id] or [trials] is absent or falsy ([None], [False], zero,
    the empty string, list or dictionary).  In particular a body that is
    not an object is never answered 400. *)
Theorem status_400_iff (store : Store) (rows : list TrialResult) (req : request) :
  status (fst (post store rows req)) = 400
  <-> exists d,
        req = Json (PDict d)
        /\ (truthy (dict_get d "participant_id") = false
            \/ truthy (dict_get d "trials") = false).
Proof.
  split.
  - intros H.
    destruct (post_outcome store rows req) as [d ds Hreq Hpid Ht Hne Hf | d Hreq Hm | e];
      cbn in H; try discriminate H.
    exists d. auto.
  - intros (d & -> & Hm). rewrite (post_missing store rows d Hm). reflexivity.
Qed.

(** X3.  The table changes exactly when the answer is 201, and then it
    grows by the number the response reports, which is at least one. *)
Theorem table_changes_iff_201 (store : Store) (rows : list TrialResult) (req : request) :
  (snd (post store rows req) <> rows <-> status (fst (post store rows req)) = 201)
  /\ Z.of_nat (List.length (snd (post store rows req)))
     = Z.of_nat (List.length rows) + trials_saved (fst (post store rows req))
  /\ (status (fst (post store rows req)) = 201 ->
      1 <= trials_saved (fst (post store rows req))).
Proof.
  destruct (post_outcome store rows req) as [d ds Hreq Hpid Ht Hne Hf | d Hreq Hm | e];
    cbn [fst snd].
  - assert (Hlen : List.length (assign_ids (next_id rows)
                      (map (new_trial (dict_get d "participant_id")) ds))
                   = List.length ds)
      by (rewrite assign_ids_length, length_map; reflexivity).
    assert (Hpos : (0 < List.length ds)%nat)
      by (destruct ds; [congruence | cbn; lia]).
    split; [split|split].
    + intros _. reflexivity.
    + intros _ E. apply (f_equal (@List.length _)) in E.
      rewrite length_app, Hlen in E. lia.
    + rewrite length_app, Hlen. cbn. lia.
    + intros _. cbn. lia.
  - split; [split|split]; cbn; try congruence; try lia; discriminate.
  - split; [split|split]; cbn; try congruence; try lia; discriminate.
Qed.

(** ** What the handler reads *)

(** X4.  Of the request's object the handler reads the keys
    [participant_id] and [trials] and nothing else: two bodies that agree
    on these two are answered alike and leave the same table. *)
Theorem only_two_keys_read
    (store : Store) (rows : list TrialResult) (d d' : list (string * value)) :
  dict_get d "participant_id" = dict_get d' "participant_id" ->
  dict_get d "trials" = dict_get d' "trials" ->
  post store rows (Json (PDict d)) = post store rows (Json (PDict d')).
Proof.
  intros Hpid Ht.
  unfold post, submit_data, try_except, submit_data_try, bind.
  cbn [get_json py_get ret]. rewrite Hpid, Ht. reflexivity.
Qed.

Lemma only_two_keys_read_witness :
  post (sqlite lenient) [] scenario_request
  = post (sqlite lenient) []
      (Json (PDict [("session", PInt 3);
                    ("trials", PList [PDict stroop_trial]);
                    ("participant_id", PStr "P1")])).
Proof.
  apply (only_two_keys_read (sqlite lenient) []
           [("participant_id", PStr "P1"); ("trials", PList [PDict stroop_trial])]
           [("session", PInt 3);
            ("trials", PList [PDict stroop_trial]);
            ("participant_id", PStr "P1")]);
    reflexivity.
Defined.

Lemma same_fields_new_trial (pid : value) (t t' : list (string * value)) :
  same_fields t t' -> new_trial pid t = new_trial pid t'.
Proof.
  intros H. unfold new_trial.
  assert (Hkey : forall c, In c trial_columns ->
                           dict_get t (col_name c) = dict_get t' (col_name c))
    by exact H.
  unfold trial_columns, columns in Hkey. cbn [tl] in Hkey.
  pose proof (Hkey _ (or_introl eq_refl)) as E1.
  pose proof (Hkey _ (or_intror (or_introl eq_refl))) as E2.
  pose proof (Hkey _ (or_intror (or_intror (or_introl eq_refl)))) as E3.
  pose proof (Hkey _ (or_intror (or_intror (or_intror (or_introl eq_refl))))) as E4.
  pose proof (Hkey _ (or_intror (or_intror (or_intror (or_intror (or_introl eq_refl))))))
    as E5.
  pose proof (Hkey _ (or_intror (or_intror (or_intror (or_intror
                        (or_intror (or_introl eq_refl))))))) as E6.
  pose proof (Hkey _ (or_intror (or_intror (or_intror (or_intror
                        (or_intror (or_intror (or_introl eq_refl)))))))) as E7.
  cbn [col_name] in E1, E2, E3, E4, E5, E6, E7.
  rewrite E1, E2, E3, E4, E5, E6, E7. reflexivity.
Qed.

Lemma same_fields_rows (pid : value) (ds ds' : list (list (string * value))) :
  Forall2 same_fields ds ds' ->
  map (new_trial pid) ds = map (new_trial pid) ds'.
Proof.
  intros H. induction H as [|t t' ds ds' Htt _ IH]; [reflexivity|].
  cbn [map]. rewrite (same_fields_new_trial pid t t' Htt), IH. reflexivity.
Qed.

(** X5.  Of a trial object the loop reads the seven field keys and nothing
    else: two submissions with the same [participant_id] whose trial
    objects agree, one by one, on those seven keys are answered alike and
    leave the same table. *)
Theorem only_field_keys_read
    (store : Store) (rows : list TrialResult) (d d' : list (string * value))
    (ds ds' : list (list (string * value))) :
  dict_get d "participant_id" = dict_get d' "participant_id" ->
  dict_get d "trials" = PList (map PDict ds) ->
  dict_get d' "trials" = PList (map PDict ds') ->
  Forall2 same_fields ds ds' ->
  post store rows (Json (PDict d)) = post store rows (Json (PDict d')).
Proof.
  intros Hpid Ht Ht' Hsame.
  pose proof (fun pid => same_fields_rows pid ds ds' Hsame) as Hrows.
  assert (Hlen : List.length ds = List.length ds')
    by (rewrite <- (length_map (new_trial PNone) ds), (Hrows PNone), length_map;
        reflexivity).
  destruct (truthy (dict_get d "participant_id")) eqn:Htruthy.
  - destruct ds as [|t ds]; destruct ds' as [|t' ds']; try discriminate Hlen.
    + rewrite (post_missing store rows d), (post_missing store rows d');
        [reflexivity | right; rewrite Ht'; reflexivity | right; rewrite Ht; reflexivity].
    + rewrite (post_objects store rows d (t :: ds) Htruthy Ht) by discriminate.
      rewrite Hpid in Htruthy.
      rewrite (post_objects store rows d' (t' :: ds') Htruthy Ht') by discriminate.
      rewrite <- Hpid, <- (Hrows (dict_get d "participant_id")), Hlen. reflexivity.
  - rewrite (post_missing store rows d) by (left; exact Htruthy).
    rewrite Hpid in Htruthy.
    rewrite (post_missing store rows d') by (left; exact Htruthy).
    reflexivity.
Qed.

Lemma only_field_keys_read_witness :
  post (sqlite lenient) [] (submission (PStr "P1") (PList [PDict stroop_trial]))
  = post (sqlite lenient) [] (submission (PStr "P1") (PList [PDict foreign_trial])).
Proof.
  apply (only_field_keys_read (sqlite lenient) []
           [("participant_id", PStr "P1"); ("trials", PList [PDict stroop_trial])]
           [("participant_id", PStr "P1"); ("trials", PList [PDict foreign_trial])]
           [stroop_trial] [foreign_trial]);
    try reflexivity.
  constructor; [|constructor].
  intros c Hc. cbn in Hc.
  repeat (destruct Hc as [<- | Hc]; [reflexivity|]). destruct Hc.
Defined.

(** ** A body that is not an object *)

(** X10.  A request whose body does not decode, or decodes to anything but
    a JSON object (null, a boolean, a number, a string, an array), is
    answered 500: with the decoder's message in the first case, with
    ['T' object has no attribute 'get'] for the value's type [T] in the
    second.  The table is unchanged. *)
Theorem non_object_body_fails
    (store : Store) (rows : list TrialResult) (req : request) :
  (forall d, req <> Json (PDict d)) ->
  post store rows req
  = (mkResponse
       (PDict [("status", PStr "error");
               ("message",
                PStr match req with
                     | Undecodable text => text
                     | Json data =>
                         ("'" ++ type_name data
                              ++ "' object has no attribute 'get'")%string
                     end)])
       500,
     rows).
Proof.
  intros H. destruct req as [data | text].
  - rewrite (post_not_object store rows data); [reflexivity|].
    destruct data; try reflexivity. exfalso. exact (H entries eq_refl).
  - apply post_undecodable.
Qed.

Lemma non_object_body_fails_witness :
  post (sqlite lenient) [] (Json (PList [PDict stroop_trial]))
  = (mkResponse
       (PDict [("status", PStr "error");
               ("message", PStr "'list' object has no attribute 'get'")])
       500,
     []).
Proof.
  apply (non_object_body_fails (sqlite lenient) [] (Json (PList [PDict stroop_trial]))).
  intros d H. discriminate H.
Defined.

(** ** Several requests *)

Lemma post_extends (store : Store) (rows : list TrialResult) (req : request) :
  exists pending,
    snd (post store rows req) = rows ++ assign_ids (next_id rows) pending.
Proof.
  destruct (post_outcome store rows req) as [d ds _ _ _ _ _ | d _ _ | e]; cbn [snd].
  - eexists. reflexivity.
  - exists []. symmetry. apply app_nil_r.
  - exists []. symmetry. apply app_nil_r.
Qed.

Lemma post_length (store : Store) (rows : list TrialResult) (req : request) :
  Z.of_nat (List.length (snd (post store rows req)))
  = Z.of_nat (List.length rows) + trials_saved (fst (post store rows req)).
Proof.
  destruct (post_outcome store rows req) as [d ds _ _ _ _ _ | d _ _ | e];
    cbn [fst snd].
  - rewrite length_app, assign_ids_length, length_map. cbn. lia.
  - cbn. lia.
  - cbn. lia.
Qed.

Lemma serve_cons (store : Store) (rows : list TrialResult)
      (req : request) (reqs : list request) :
  serve store rows (req :: reqs)
  = (fst (post store rows req) :: fst (serve store (snd (post store rows req)) reqs),
     snd (serve store (snd (post store rows req)) reqs)).
Proof.
  cbn [serve]. destruct (post store rows req) as [resp rows']. cbn [fst snd].
  destruct (serve store rows' reqs) as [resps final]. reflexivity.
Qed.

(** X8.  Requests served one after the other: every request is answered,
    the final table is the initial one followed by new rows, and it has
    grown by the sum of the counts the 201 responses report. *)
Theorem serve_accounts_for_every_row (store : Store) (reqs : list request) :
  forall rows,
    List.length (fst (serve store rows reqs)) = List.length reqs
    /\ (exists new, snd (serve store rows reqs) = rows ++ new)
    /\ Z.of_nat (List.length (snd (serve store rows reqs)))
       = Z.of_nat (List.length rows)
         + fold_right Z.add 0 (map trials_saved (fst (serve store rows reqs))).
Proof.
  induction reqs as [|req reqs IH]; intros rows.
  - cbn. repeat split; [exists []; symmetry; apply app_nil_r | lia].
  - rewrite serve_cons. cbn [fst snd List.length map fold_right].
    pose proof (post_length store rows req) as Hlen.
    destruct (post_extends store rows req) as [pending Hext].
    destruct (IH (snd (post store rows req))) as (IH1 & [new IH2] & IH3).
    repeat split.
    + rewrite IH1. reflexivity.
    + exists (assign_ids (next_id rows) pending ++ new).
      rewrite IH2, Hext, app_assoc. reflexivity.
    + lia.
Qed.

(** X9.  Nothing recognises a batch that was stored before: on the SQLite
    store, a request answered 201 and sent again is answered the same and
    its batch is stored a second time, under new keys. *)
Theorem resubmission_stores_again
    (mistyped : column -> value -> option exn)
    (rows : list TrialResult) (req : request) :
  status (fst (post (sqlite mistyped) rows req)) = 201 ->
  exists batch,
    batch <> []
    /\ snd (post (sqlite mistyped) rows req)
       = rows ++ assign_ids (next_id rows) batch
    /\ post (sqlite mistyped) (snd (post (sqlite mistyped) rows req)) req
       = (fst (post (sqlite mistyped) rows req),
          (rows ++ assign_ids (next_id rows) batch)
            ++ assign_ids (next_id (rows ++ assign_ids (next_id rows) batch)) batch).
Proof.
  intros H.
  destruct (post_outcome (sqlite mistyped) rows req)
    as [d ds Hreq Hpid Ht Hne Hf | d Hreq Hm | e];
    cbn in H; try discriminate H.
  subst req. cbn [fst snd].
  exists (map (new_trial (dict_get d "participant_id")) ds).
  split; [|split].
  - destruct ds; [congruence | discriminate].
  - reflexivity.
  - rewrite (post_objects (sqlite mistyped) _ d ds Hpid Ht Hne).
    cbn [flush_error sqlite] in *. rewrite Hf. reflexivity.
Qed.

Lemma resubmission_stores_again_witness :
  exists batch,
    batch <> []
    /\ snd (post (sqlite lenient) [] scenario_request)
       = [] ++ assign_ids (next_id []) batch
    /\ post (sqlite lenient) (snd (post (sqlite lenient) [] scenario_request))
         scenario_request
       = (fst (post (sqlite lenient) [] scenario_request),
          ([] ++ assign_ids (next_id []) batch)
            ++ assign_ids (next_id ([] ++ assign_ids (next_id []) batch)) batch).
Proof.
  apply (resubmission_stores_again lenient [] scenario_request).
  reflexivity.
Defined.

(** ** The text of a row *)

Lemma spaceless_digits (d : Decimal.uint) :
  spaceless (NilEmpty.string_of_uint d).
Proof. induction d; cbn; (exact I || (split; [discriminate | assumption])). Qed.

Lemma spaceless_str_int (n : Z) : spaceless (str_int n).
Proof.
  unfold str_int, NilZero.string_of_int, NilZero.string_of_uint.
  destruct (Z.to_int n) as [d | d]; destruct d;
    cbn [spaceless]; repeat split; try discriminate; apply spaceless_digits.
Qed.

Lemma str_int_inj (n m : Z) : str_int n = str_int m -> n = m.
Proof.
  unfold str_int. intros H.
  assert (Hn : forall z, Z.to_int z <> Decimal.Pos Decimal.Nil
                         /\ Z.to_int z <> Decimal.Neg Decimal.Nil).
  { intros [|p|p]; cbn; split; try discriminate;
      intros [= E]; exact (Unsigned.to_uint_nonnil p E). }
  apply (f_equal NilZero.int_of_string) in H.
  rewrite !NilZero.isi in H by apply Hn.
  injection H as H. apply DecimalZ.to_int_inj, H.
Qed.

Lemma split_at_space (a b x y : string) :
  spaceless a -> spaceless b ->
  (a ++ String " " x)%string = (b ++ String " " y)%string ->
  a = b /\ x = y.
Proof.
  revert b. induction a as [|c a IH]; intros [|c' b] Ha Hb H; cbn in *.
  - injection H as ->. auto.
  - injection H as <- _. destruct Hb as [Hc _]. congruence.
  - injection H as -> _. destruct Ha as [Hc _]. congruence.
  - injection H as -> H. destruct Ha as [_ Ha], Hb as [_ Hb].
    destruct (IH b Ha Hb H) as [-> ->]. auto.
Qed.

Lemma append_cancel_last (p q : string) (c : ascii) :
  (p ++ String c EmptyString)%string = (q ++ String c EmptyString)%string -> p = q.
Proof.
  revert q. induction p as [|a p IH]; intros [|b q] H; cbn in *.
  - reflexivity.
  - injection H as _ H. destruct q; discriminate H.
  - injection H as _ H. destruct p; discriminate H.
  - injection H as -> H. rewrite (IH q H). reflexivity.
Qed.

(** X13.  The text of a stored row tells the row's key and participant:
    two rows that have a key and a string [participant_id] have the same
    [__repr__] only if they have the same key and the same
    [participant_id]. *)
Theorem repr_tells_key_and_participant
    (str_value : value -> string) (r1 r2 : TrialResult)
    (n1 n2 : Z) (p1 p2 : string) :
  (forall s, str_value (PStr s) = s) ->
  id r1 = Some n1 -> id r2 = Some n2 ->
  participant_id r1 = PStr p1 -> participant_id r2 = PStr p2 ->
  repr str_value r1 = repr str_value r2 ->
  n1 = n2 /\ p1 = p2.
Proof.
  intros Hstr Hid1 Hid2 Hp1 Hp2 H.
  unfold repr in H. rewrite Hid1, Hid2, Hp1, Hp2, !Hstr in H.
  cbn [str_id append] in H. injection H as H.
  apply split_at_space in H; try apply spaceless_str_int.
  destruct H as [Hn H]. injection H as H.
  split; [apply str_int_inj, Hn | apply (append_cancel_last p1 p2 _ H)].
Qed.

Lemma repr_tells_key_and_participant_witness :
  repr str_of_string
    (mkTrialResult (Some 12) (PStr "P 1") PNone PNone PNone PNone PNone PNone PNone)
  = "<Trial 12 for P 1>"
  /\ (12 = 12 /\ "P 1" = "P 1").
Proof.
  split; [reflexivity|].
  apply (repr_tells_key_and_participant str_of_string
           (mkTrialResult (Some 12) (PStr "P 1") PNone PNone PNone PNone PNone PNone PNone)
           (mkTrialResult (Some 12) (PStr "P 1") (PStr "other") PNone PNone PNone
              PNone PNone PNone)
           12 12 "P 1" "P 1");
    reflexivity.
Defined.

(** ** The status characterisations at the sample requests *)

Lemma status_201_iff_witness :
  status (fst (post (sqlite lenient) [] scenario_request)) = 201.
Proof.
  apply (proj2 (status_201_iff (sqlite lenient) [] scenario_request)).
  exists [("participant_id", PStr "P1"); ("trials", PList [PDict stroop_trial])],
         [stroop_trial].
  repeat split. discriminate.
Defined.

Lemma status_400_iff_witness :
  status (fst (post (sqlite lenient) [] (submission (PInt 0) (PList [PDict stroop_trial]))))
  = 400.
Proof.
  apply (proj2 (status_400_iff (sqlite lenient) []
                  (submission (PInt 0) (PList [PDict stroop_trial])))).
  exists [("participant_id", PInt 0); ("trials", PList [PDict stroop_trial])].
  split; [reflexivity | left; reflexivity].
Defined.

Lemma table_changes_iff_201_witness :
  1 <= trials_saved (fst (post (sqlite lenient) [] scenario_request)).
Proof.
  apply (proj2 (proj2 (table_changes_iff_201 (sqlite lenient) [] scenario_request))).
  reflexivity.
Defined.
